(** * dockerfile_py: a shallow embedding of [dockerfile.py]

    The module under study is a single Python class, [Dockerfile], that
    accumulates formatted directive lines in a list and renders them with
    [str.join].  The embedding has three layers:

    - [Py]: the fragment of the Python runtime the class relies on: [str]
      as a sequence of code points, dynamically typed values, the exceptions
      the code can raise, [list.__add__], [str.join] and [str(int)];
    - [Json]: [json.dumps] with its default settings on that fragment;
    - the class itself: one definition per method, in the order of the
      source, on an explicit object state, and a heap of builder objects for
      the one method ([include]) that involves two objects. *)

From Stdlib Require Import ZArith NArith Ascii String DecimalString.
From Stdlib Require DecimalPos DecimalZ.
From stdpp Require Import gmap list strings.

Open Scope N_scope.
Open Scope list_scope.

(** ** The Python fragment *)

Module Py.

(** A Python [str] is a sequence of Unicode code points. *)
Definition str := list N.

(** An ASCII literal of the source, as a [str]. *)
Fixpoint lit (s : string) : str :=
  match s with
  | EmptyString => []
  | String a s' => N_of_ascii a :: lit s'
  end.

(** The exceptions raised by the code under study or by the runtime
    operations it calls. *)
Inductive exn := TypeError | ValueError.

Inductive result (A : Type) :=
| Ok (a : A)
| Raise (e : exn).
Arguments Ok {A} a.
Arguments Raise {A} e.

Definition rbind {A B} (r : result A) (k : A -> result B) : result B :=
  match r with
  | Ok a => k a
  | Raise e => Raise e
  end.

(** A fallible function over the items of a sequence, left to right; the
    first exception ends it. *)
Definition rmap {A B} (f : A -> result B) : list A -> result (list B) :=
  fix go (l : list A) : result (list B) :=
    match l with
    | [] => Ok []
    | x :: xs =>
        match f x with
        | Ok y => match go xs with Ok ys => Ok (y :: ys) | Raise e => Raise e end
        | Raise e => Raise e
        end
    end.

(** Dynamically typed values: the shapes a caller can pass for an argument
    whose type the code inspects at run time, and the temporaries the
    methods build.  They are finite trees: a list that contains itself, and
    nesting deeper than the interpreter's recursion limit, have no
    counterpart here, and nothing below says what [json.dumps] does on
    them. *)
#[warnings="-register-all"]
Inductive value :=
| VNone
| VBool (b : bool)
| VInt (z : Z)
| VStr (s : str)
| VBytes (b : list N)
| VList (l : list value)
| VTuple (l : list value).

(** [l + r] for a list [l]: [list.__add__] accepts a list only, and no
    other type of the fragment defines [__radd__]. *)
Definition list_add (l : list value) (r : value) : result (list value) :=
  match r with
  | VList r' => Ok (l ++ r')
  | _ => Raise TypeError
  end.

(** [sep.join(xs)]. *)
Fixpoint str_join (sep : str) (xs : list str) : str :=
  match xs with
  | [] => []
  | x :: xs' =>
      match xs' with
      | [] => x
      | _ :: _ => x ++ sep ++ str_join sep xs'
      end
  end.

(** The decimal text of an [int]: digits, with a leading minus sign. *)
Definition int_text (z : Z) : str :=
  lit (NilZero.string_of_int (Z.to_int z)).

(** [sys.int_info.default_max_str_digits]: the most digits CPython (3.11 and
    later, with default settings) converts between [int] and [str]. *)
Definition max_str_digits : nat := 4300.

(** The sign does not count as a digit. *)
Definition too_many_digits (z : Z) : bool :=
  (max_str_digits <? length (int_text (Z.abs z)))%nat.

(** [str(z)], [repr(z)] and [format(z, "")] for an [int]: the decimal text,
    or [ValueError] when it has more digits than the limit. *)
Definition int_str (z : Z) : result str :=
  if too_many_digits z then Raise ValueError else Ok (int_text z).

(** How a variadic parameter [*args] is bound: as a tuple. *)
Definition star_args (args : list str) : value :=
  VTuple (map VStr args).

End Py.

Import Py.

Declare Scope py_scope.
Delimit Scope py_scope with py.
Notation "x <- m ;; k" := (rbind m (fun x => k))
  (at level 100, m at next level, right associativity) : py_scope.

(** ** [json.dumps] with default settings *)

Module Json.

(** One lower-case hexadecimal digit. *)
Definition hex_digit (n : N) : N :=
  if n <? 10 then 48 + n else 87 + n.

(** ['{0:04x}'.format(n)] for [n < 0x10000]. *)
Definition hex4 (n : N) : str :=
  [ hex_digit (N.land (N.shiftr n 12) 15);
    hex_digit (N.land (N.shiftr n 8) 15);
    hex_digit (N.land (N.shiftr n 4) 15);
    hex_digit (N.land n 15) ].

(** [\uXXXX]. *)
Definition u_escape (n : N) : str := 92 :: 117 :: hex4 n.

(** The replacement of one character by [encode_basestring_ascii]: the
    short escapes of [ESCAPE_DCT], printable ASCII unchanged, and [\u]
    escapes (a surrogate pair above the basic plane) for the rest. *)
Definition escape_char (c : N) : str :=
  if c =? 92 then [92; 92]
  else if c =? 34 then [92; 34]
  else if c =? 8 then [92; 98]
  else if c =? 12 then [92; 102]
  else if c =? 10 then [92; 110]
  else if c =? 13 then [92; 114]
  else if c =? 9 then [92; 116]
  else if (32 <=? c) && (c <=? 126) then [c]
  else if c <? 65536 then u_escape c
  else
    let n := c - 65536 in
    let s1 := N.lor 55296 (N.land (N.shiftr n 10) 1023) in
    let s2 := N.lor 56320 (N.land n 1023) in
    u_escape s1 ++ u_escape s2.

Definition encode_basestring_ascii (s : str) : str :=
  34 :: concat (map escape_char s) ++ [34].

(** A JSON array from the encodings of its items, with the default item
    separator. *)
Definition array (chunks : list str) : str :=
  91 :: str_join (lit ", ") chunks ++ [93].

(** [json.dumps(v)]: separators [", "], [ensure_ascii=True]; a value that
    is not serializable raises [TypeError], an [int] with too many digits
    [ValueError]. *)
Fixpoint dumps (v : value) : result str :=
  match v with
  | VNone => Ok (lit "null")
  | VBool b => Ok (lit (if b then "true" else "false"))
  | VInt z => int_str z
  | VStr s => Ok (encode_basestring_ascii s)
  | VBytes _ => Raise TypeError
  | VList l => (chunks <- rmap dumps l;; Ok (array chunks))%py
  | VTuple l => (chunks <- rmap dumps l;; Ok (array chunks))%py
  end.

End Json.

Import Json.

(** ** The class [Dockerfile] *)

(** The state of one instance: its only attribute. *)
Record Dockerfile := mkDockerfile { _lines : list str }.

(** A method body: it runs on the state of [self], returns or raises, and
    leaves a state behind in both cases. *)
Definition meth (A : Type) : Type := Dockerfile -> result A * Dockerfile.

Definition ret {A} (a : A) : meth A := fun self => (Ok a, self).

Definition raise {A} (e : exn) : meth A := fun self => (Raise e, self).

Definition bind {A B} (m : meth A) (k : A -> meth B) : meth B :=
  fun self =>
    match m self with
    | (Ok a, self') => k a self'
    | (Raise e, self') => (Raise e, self')
    end.

(** An expression that may raise but does not touch [self]. *)
Definition eval {A} (r : result A) : meth A := fun self => (r, self).

(** [self._lines.append(line)]. *)
Definition lines_append (line : str) : meth unit :=
  fun self => (Ok tt, mkDockerfile (_lines self ++ [line])).

Declare Scope meth_scope.
Delimit Scope meth_scope with meth.
Notation "x <- m ;; k" := (bind m (fun x => k))
  (at level 100, m at next level, right associativity) : meth_scope.

(** [Dockerfile(syntax, escape)]: the state [__init__] leaves. *)
Definition __init__ (syntax escape : option str) : Dockerfile :=
  let l0 := [] in
  let l1 := match syntax with
            | Some v => l0 ++ [lit "# syntax: " ++ v]
            | None => l0
            end in
  let l2 := match escape with
            | Some v => l1 ++ [lit "# escape: " ++ v]
            | None => l1
            end in
  mkDockerfile l2.

Definition __str__ : meth str :=
  fun self => (Ok (str_join [] (_lines self)), self).

(** [as_fileobj] wraps the render in an in-memory stream, seen here as the
    text the stream holds. *)
Definition as_fileobj : meth str :=
  (s <- __str__;; ret s)%meth.

Definition ADD (src dest : str) (chown : option str) : meth unit :=
  let chown_param := match chown with
                     | Some c => lit "--chown=" ++ c ++ lit " "
                     | None => []
                     end in
  lines_append (lit "ADD " ++ chown_param ++ src ++ lit " " ++ dest).

Definition ARG (varname : str) (default_value : option str) : meth unit :=
  (default_param <- match default_value with
                    | Some d => eval (q <- dumps (VStr d);; Ok (lit "=" ++ q))%py
                    | None => ret []
                    end;;
   lines_append (lit "ARG " ++ varname ++ default_param))%meth.

(** [src] is inspected at run time: the first arm is [isinstance(src, str)],
    the second [isinstance(src, list)], the last the [else] branch. *)
Definition COPY (src : value) (dest : str) (from_ chown : option str) : meth unit :=
  let from_param := match from_ with
                    | Some f => lit "--from=" ++ f ++ lit " "
                    | None => []
                    end in
  let chown_param := match chown with
                     | Some c => lit "--chown=" ++ c ++ lit " "
                     | None => []
                     end in
  (src_and_dest <- match src with
                   | VStr s => ret (s ++ lit " " ++ dest)
                   | VList l => eval (v <- list_add l (VList [VStr dest]);; dumps (VList v))%py
                   | _ => raise ValueError
                   end;;
   lines_append (lit "COPY " ++ from_param ++ chown_param ++ src_and_dest))%meth.

Definition CMD (command : str) (args : list str) : meth unit :=
  if (length args =? 0)%nat then
    lines_append (lit "CMD " ++ command)
  else
    (params <- eval (v <- list_add [VStr command] (star_args args);; dumps (VList v))%py;;
     lines_append (lit "CMD " ++ params))%meth.

Definition ENTRYPOINT (command : str) (args : list str) : meth unit :=
  if (length args =? 0)%nat then
    lines_append (lit "ENTRYPOINT " ++ command)
  else
    (params <- eval (v <- list_add [VStr command] (star_args args);; dumps (VList v))%py;;
     lines_append (lit "ENTRYPOINT " ++ params))%meth.

Definition ENV (varname value : str) : meth unit :=
  (q <- eval (dumps (VStr value));;
   lines_append (lit "ENV " ++ varname ++ lit "=" ++ q))%meth.

(** [protocol] is [None] when the caller leaves the default. *)
Definition EXPOSE (port : Z) (protocol : option str) : meth unit :=
  let protocol := default (lit "tcp") protocol in
  (p <- eval (int_str port);;
   lines_append (lit "EXPOSE " ++ p ++ lit "/" ++ protocol))%meth.

Definition FROM (base_image : str) (as_image platform : option str) : meth unit :=
  let platform_param := match platform with
                        | Some p => lit "--platform=" ++ p
                        | None => []
                        end in
  let as_image_param := match as_image with
                        | Some a => lit " as " ++ a
                        | None => []
                        end in
  lines_append (lit "FROM " ++ platform_param ++ base_image ++ as_image_param).

Definition LABEL (key value : str) : meth unit :=
  (k <- eval (dumps (VStr key));;
   v <- eval (dumps (VStr value));;
   lines_append (lit "LABEL " ++ k ++ lit "=" ++ v))%meth.

Definition RUN (command : str) (args : list str) : meth unit :=
  if (length args =? 0)%nat then
    lines_append (lit "RUN " ++ command)
  else
    (params <- eval (v <- list_add [VStr command] (star_args args);; dumps (VList v))%py;;
     lines_append (lit "RUN " ++ params))%meth.

Definition SHELL (executable : str) (params : list str) : meth unit :=
  (a <- eval (v <- list_add [VStr executable] (star_args params);; dumps (VList v))%py;;
   lines_append (lit "SHELL " ++ a))%meth.

Definition USER (user : str) (group : option str) : meth unit :=
  let group_param := match group with
                     | Some g => lit ":" ++ g
                     | None => []
                     end in
  lines_append (lit "USER " ++ user ++ group_param).

Definition VOLUME (path : str) (additional_paths : list str) : meth unit :=
  (paths <- eval (v <- list_add [VStr path] (star_args additional_paths);; dumps (VList v))%py;;
   lines_append (lit "VOLUME " ++ paths))%meth.

Definition WORKDIR (path : str) : meth unit :=
  lines_append (lit "WORKDIR " ++ path).

(** ** Calls and callers *)

(** One call of a directive method with its arguments. *)
Inductive call :=
| cADD (src dest : str) (chown : option str)
| cARG (varname : str) (default_value : option str)
| cCOPY (src : value) (dest : str) (from_ chown : option str)
| cCMD (command : str) (args : list str)
| cENTRYPOINT (command : str) (args : list str)
| cENV (varname value : str)
| cEXPOSE (port : Z) (protocol : option str)
| cFROM (base_image : str) (as_image platform : option str)
| cLABEL (key value : str)
| cRUN (command : str) (args : list str)
| cSHELL (executable : str) (params : list str)
| cUSER (user : str) (group : option str)
| cVOLUME (path : str) (additional_paths : list str)
| cWORKDIR (path : str).

Definition invoke (c : call) : meth unit :=
  match c with
  | cADD src dest chown => ADD src dest chown
  | cARG varname default_value => ARG varname default_value
  | cCOPY src dest from_ chown => COPY src dest from_ chown
  | cCMD command args => CMD command args
  | cENTRYPOINT command args => ENTRYPOINT command args
  | cENV varname value => ENV varname value
  | cEXPOSE port protocol => EXPOSE port protocol
  | cFROM base_image as_image platform => FROM base_image as_image platform
  | cLABEL key value => LABEL key value
  | cRUN command args => RUN command args
  | cSHELL executable params => SHELL executable params
  | cUSER user group => USER user group
  | cVOLUME path additional_paths => VOLUME path additional_paths
  | cWORKDIR path => WORKDIR path
  end.

(** Calls one after the other on the same builder; an exception that is
    not caught ends the sequence. *)
Fixpoint invoke_all (cs : list call) : meth unit :=
  match cs with
  | [] => ret tt
  | c :: cs' => (_ <- invoke c;; invoke_all cs')%meth
  end.

(** Builders are objects: a caller holds references, and two references may
    name the same builder.  The heap maps a reference to the state of the
    instance; the list held in [_lines] is created by [__init__] and never
    handed out, so it is owned by its instance. *)
Abbreviation ref := positive.
Abbreviation heap := (gmap positive Dockerfile).

(** [Dockerfile(syntax, escape)] at a fresh reference. *)
Definition new (syntax escape : option str) (h : heap) : ref * heap :=
  let r := fresh (dom h) in (r, <[r := __init__ syntax escape]> h).

(** [self.m(...)]: the body runs on the state of the instance [self] names.
    [None] stands for a dangling reference, which Python does not have. *)
Definition send {A} (self : ref) (m : meth A) (h : heap) : option (result A * heap) :=
  match h !! self with
  | Some s => let (r, s') := m s in Some (r, <[self := s']> h)
  | None => None
  end.

(** [self._lines += dockerfile._lines]: [list.__iadd__] extends the list of
    [self] in place by the items the argument list holds at the call; when
    both are the same list the items are those held before it grows. *)
Definition include (self dockerfile : ref) (h : heap) : option (result unit * heap) :=
  match h !! self, h !! dockerfile with
  | Some s, Some d => Some (Ok tt, <[self := mkDockerfile (_lines s ++ _lines d)]> h)
  | _, _ => None
  end.

(** [str(b)]. *)
Definition render (b : ref) (h : heap) : option (result str * heap) :=
  send b __str__ h.

(** What a caller does with the builders it holds. *)
Inductive stmt :=
| SCall (self : ref) (c : call)
| SInclude (self dockerfile : ref).

(** The builder a statement mutates, and the builders it mentions. *)
Definition receiver (st : stmt) : ref :=
  match st with
  | SCall self _ => self
  | SInclude self _ => self
  end.

Definition mentions (st : stmt) : list ref :=
  match st with
  | SCall self _ => [self]
  | SInclude self dockerfile => [self; dockerfile]
  end.

Definition exec (st : stmt) (h : heap) : option (result unit * heap) :=
  match st with
  | SCall self c => send self (invoke c) h
  | SInclude self dockerfile => include self dockerfile h
  end.

(** A caller that goes on after an exception (it catches it): the heap
    after all statements. *)
Fixpoint exec_all (sts : list stmt) (h : heap) : option heap :=
  match sts with
  | [] => Some h
  | st :: sts' =>
      match exec st h with
      | Some (_, h') => exec_all sts' h'
      | None => None
      end
  end.

(** ** Vocabulary of the specification *)

(** The JSON string literal for [s] and the JSON array of a list of
    strings, as the specification describes them: double-quoted strings,
    array brackets, comma separation. *)
Definition json_quoted (s : str) : str := encode_basestring_ascii s.

Definition json_array_of (items : list str) : str :=
  lit "[" ++ str_join (lit ", ") (map json_quoted items) ++ lit "]".

(** An option clause [<name><value> ], present when the argument is. *)
Definition clause (name : str) (arg : option str) : str :=
  match arg with
  | Some v => name ++ v ++ lit " "
  | None => []
  end.

(** A string literal in double quotes. *)
Definition q (s : string) : str := 34 :: lit s ++ [34].

(** The state after one more line. *)
Definition appended (self : Dockerfile) (line : str) : Dockerfile :=
  mkDockerfile (_lines self ++ [line]).



(** The calls whose body concatenates a list with the tuple of the variadic
    arguments. *)
Definition adds_tuple (c : call) : bool :=
  match c with
  | cCMD _ (_ :: _) | cENTRYPOINT _ (_ :: _) | cRUN _ (_ :: _) => true
  | cSHELL _ _ | cVOLUME _ _ => true
  | _ => false
  end.

Definition is_COPY (c : call) : bool :=
  match c with cCOPY _ _ _ _ => true | _ => false end.

(** The calls that format an [int] with more digits than the limit. *)
Definition port_too_long (c : call) : bool :=
  match c with
  | cEXPOSE port _ => too_many_digits port
  | _ => false
  end.

(** Printable ASCII: space to tilde. *)
Definition printable (c : N) : bool := (32 <=? c) && (c <=? 126).

Definition all_printable (s : str) : bool := forallb printable s.

(** A parser-directive comment line, present when the argument is. *)
Definition comment (name : str) (arg : option str) : list str :=
  match arg with
  | Some v => [lit "# " ++ name ++ lit ": " ++ v]
  | None => []
  end.

(** The name of the method a call names. *)
Definition keyword (c : call) : string :=
  match c with
  | cADD _ _ _ => "ADD"
  | cARG _ _ => "ARG"
  | cCOPY _ _ _ _ => "COPY"
  | cCMD _ _ => "CMD"
  | cENTRYPOINT _ _ => "ENTRYPOINT"
  | cENV _ _ => "ENV"
  | cEXPOSE _ _ => "EXPOSE"
  | cFROM _ _ _ => "FROM"
  | cLABEL _ _ => "LABEL"
  | cRUN _ _ => "RUN"
  | cSHELL _ _ => "SHELL"
  | cUSER _ _ => "USER"
  | cVOLUME _ _ => "VOLUME"
  | cWORKDIR _ => "WORKDIR"
  end.

(** The string arguments a call formats into its line as they are, without
    JSON quoting. *)
Definition verbatim (c : call) : list str :=
  match c with
  | cADD src dest chown => [src; dest] ++ option_list chown
  | cARG varname _ => [varname]
  | cCOPY src dest from_ chown =>
      match src with
      | VStr s => [s; dest]
      | _ => []
      end ++ option_list from_ ++ option_list chown
  | cCMD command _ => [command]
  | cENTRYPOINT command _ => [command]
  | cENV varname _ => [varname]
  | cEXPOSE _ protocol => option_list protocol
  | cFROM base_image as_image platform =>
      [base_image] ++ option_list as_image ++ option_list platform
  | cLABEL _ _ => []
  | cRUN command _ => [command]
  | cSHELL _ _ => []
  | cUSER user group => [user] ++ option_list group
  | cVOLUME _ _ => []
  | cWORKDIR path => [path]
  end.

(** The line a call appends when it returns, read off a run on a builder
    without lines; [None] when the call raises. *)
Definition line_of (c : call) : option str :=
  match invoke c (mkDockerfile []) with
  | (Ok _, s) => head (_lines s)
  | (Raise _, _) => None
  end.

(** Two renders in a row, with nothing in between. *)
Definition render_twice (b : ref) (h : heap) : option (result str * result str * heap) :=
  match render b h with
  | Some (r1, h1) =>
      match render b h1 with
      | Some (r2, h2) => Some (r1, r2, h2)
      | None => None
      end
  | None => None
  end.

(** Unfolds a method body down to the runtime operations. *)
Ltac run_meth :=
  unfold ADD, ARG, COPY, CMD, ENTRYPOINT, ENV, EXPOSE, FROM, LABEL, RUN,
    SHELL, USER, VOLUME, WORKDIR, bind, eval, ret, raise, lines_append,
    appended; simpl.

(** ** The runtime fragment: basic facts *)

Section Runtime.

Lemma str_join_empty_sep (xs : list str) : str_join [] xs = concat xs.
Proof.
  induction xs as [|x [|y ys] IH]; simpl in *.
  - reflexivity.
  - now rewrite app_nil_r.
  - now rewrite IH.
Qed.

Lemma str_join_empty_sep_app (xs ys : list str) :
  str_join [] (xs ++ ys) = str_join [] xs ++ str_join [] ys.
Proof. rewrite !str_join_empty_sep. apply concat_app. Qed.

Lemma rmap_strs (l : list str) :
  rmap dumps (map VStr l) = Ok (map json_quoted l).
Proof.
  induction l as [|s l IH]; simpl.
  - reflexivity.
  - now rewrite IH.
Qed.

(** On a list of strings [json.dumps] gives the JSON array of the
    specification. *)
Lemma dumps_str_list (l : list str) :
  dumps (VList (map VStr l)) = Ok (json_array_of l).
Proof. simpl. now rewrite rmap_strs. Qed.

Lemma dumps_str (s : str) : dumps (VStr s) = Ok (json_quoted s).
Proof. reflexivity. Qed.

(** A list and the tuple of variadic arguments do not add up. *)
Lemma list_add_star_args (l : list value) (args : list str) :
  list_add l (star_args args) = Raise TypeError.
Proof. reflexivity. Qed.


End Runtime.

(** ** Every call either appends one line or raises and changes nothing *)

Section Calls.

(** The outcome of a call does not depend on the state it runs on. *)
Lemma invoke_cases (c : call) :
  (exists line, forall self, invoke c self = (Ok tt, appended self line)) \/
  (exists e, forall self, invoke c self = (Raise e, self)).
Proof.
  destruct c as [src dest chown|varname [d|]|src dest from_ chown|command [|a args]
                |command [|a args]|varname value|port protocol|base as_image platform
                |key value|command [|a args]|executable params|user group|path paths
                |path]; simpl;
    try (left; eexists; intros self; run_meth; reflexivity);
    try (right; eexists; intros self; run_meth; reflexivity).
  - destruct src as [| | |s| |l|l];
      try (right; exists ValueError; intros self; run_meth; reflexivity).
    + left; eexists; intros self; run_meth; reflexivity.
    + run_meth. destruct (rmap dumps (l ++ [VStr dest])) as [chunks|e].
      * left; eexists; intros self; reflexivity.
      * right; exists e; intros self; reflexivity.
  - unfold EXPOSE, bind, eval, lines_append, appended.
    destruct (int_str port) as [p|e].
    + left; eexists; intros self; reflexivity.
    + right; exists e; intros self; reflexivity.
Qed.

Lemma invoke_all_lines (cs : list call) :
  forall self self',
    invoke_all cs self = (Ok tt, self') ->
    exists ls,
      Forall2 (fun c line => forall b, invoke c b = (Ok tt, appended b line)) cs ls /\
      _lines self' = _lines self ++ ls.
Proof.
  induction cs as [|c cs IH]; intros self self' H; simpl in H.
  - exists []. split; [constructor|]. inversion H. now rewrite app_nil_r.
  - unfold bind in H. destruct (invoke_cases c) as [[line Hl]|[e He]].
    + rewrite Hl in H. destruct (IH _ _ H) as (ls & HF & Hls).
      exists (line :: ls). split; [now constructor|].
      rewrite Hls. simpl. now rewrite <- app_assoc.
    + rewrite He in H. discriminate.
Qed.

End Calls.

(** ** The heap of builders *)

Section Heap.

Lemma send_live {A} (self : ref) (m : meth A) (h : heap) (s : Dockerfile) :
  h !! self = Some s ->
  send self m h = Some (fst (m s), <[self := snd (m s)]> h).
Proof. intros H. unfold send. rewrite H. now destruct (m s). Qed.

(** A statement leaves every builder but its receiver as it was. *)
Lemma exec_frame (st : stmt) (h h' : heap) (r : result unit) (b : ref) :
  exec st h = Some (r, h') -> receiver st <> b -> h' !! b = h !! b.
Proof.
  destruct st as [self c|self d]; simpl; intros H Hne.
  - unfold send in H. destruct (h !! self) as [s|]; [|discriminate].
    destruct (invoke c s) as [r' s']. inversion H; subst.
    now apply lookup_insert_ne.
  - unfold include in H.
    destruct (h !! self) as [s|]; [|discriminate].
    destruct (h !! d) as [s'|]; [|discriminate].
    inversion H; subst. now apply lookup_insert_ne.
Qed.

(** A statement keeps the set of live builders. *)
Lemma exec_dom (st : stmt) (h h' : heap) (r : result unit) :
  exec st h = Some (r, h') -> dom h' = dom h.
Proof.
  destruct st as [self c|self d]; simpl; intros Hex.
  - unfold send in Hex. destruct (h !! self) as [s|] eqn:E; [|discriminate].
    destruct (invoke c s) as [r' s']. inversion Hex; subst.
    rewrite dom_insert_L. pose proof (elem_of_dom_2 _ _ _ E) as Hin.
    apply subseteq_union_1_L, singleton_subseteq_l, Hin.
  - unfold include in Hex.
    destruct (h !! self) as [s|] eqn:E; [|discriminate].
    destruct (h !! d) as [s'|]; [|discriminate].
    inversion Hex; subst.
    rewrite dom_insert_L. pose proof (elem_of_dom_2 _ _ _ E) as Hin.
    apply subseteq_union_1_L, singleton_subseteq_l, Hin.
Qed.

(** A statement on live builders runs. *)
Lemma exec_total (st : stmt) (h : heap) :
  Forall (fun b => b ∈ dom h) (mentions st) ->
  exists r h', exec st h = Some (r, h').
Proof.
  destruct st as [self c|self d]; simpl; intros H.
  - apply Forall_cons in H as [H _]. apply elem_of_dom in H as [s Hs].
    unfold send. rewrite Hs. destruct (invoke c s) as [r s']. eauto.
  - apply Forall_cons in H as [H1 H2]. apply Forall_cons in H2 as [H2 _].
    apply elem_of_dom in H1 as [s Hs]. apply elem_of_dom in H2 as [s' Hs'].
    unfold include. rewrite Hs, Hs'. eauto.
Qed.

Lemma exec_all_frame (sts : list stmt) (b : ref) :
  forall h : heap,
    Forall (fun st => receiver st <> b) sts ->
    Forall (fun st => Forall (fun x => x ∈ dom h) (mentions st)) sts ->
    exists h', exec_all sts h = Some h' /\ h' !! b = h !! b /\ dom h' = dom h.
Proof.
  induction sts as [|st sts IH]; intros h Hrecv Hlive; simpl.
  - eauto.
  - apply Forall_cons in Hrecv as [Hr Hrecv].
    apply Forall_cons in Hlive as [Hl Hlive].
    destruct (exec_total st h Hl) as (r & h1 & E). rewrite E.
    pose proof (exec_dom _ _ _ _ E) as Hd.
    pose proof (exec_frame _ _ _ _ b E Hr) as Hf.
    destruct (IH h1 Hrecv) as (h' & E' & Hb & Hd').
    + now rewrite Hd.
    + exists h'. split; [exact E'|]. split; congruence.
Qed.

(** A new builder is a builder no reference named before, it holds what
    [__init__] left, and the builders there were are as they were. *)
Lemma new_fresh (syntax escape : option str) (h : heap) :
  h !! (new syntax escape h).1 = None /\
  (new syntax escape h).2 !! (new syntax escape h).1 = Some (__init__ syntax escape) /\
  forall b, b <> (new syntax escape h).1 -> (new syntax escape h).2 !! b = h !! b.
Proof.
  unfold new. simpl. split; [|split].
  - apply not_elem_of_dom, is_fresh.
  - apply lookup_insert_eq.
  - intros b Hb. now apply lookup_insert_ne.
Qed.

(** Rendering a live builder returns the concatenation of its lines and
    the heap it was given. *)
Lemma render_live (b : ref) (h : heap) (s : Dockerfile) :
  h !! b = Some s -> render b h = Some (Ok (concat (_lines s)), h).
Proof.
  intros Hb. unfold render. rewrite (send_live _ _ _ _ Hb). simpl.
  now rewrite str_join_empty_sep, insert_id.
Qed.

Lemma include_live (self d : ref) (h : heap) (s s' : Dockerfile) :
  h !! self = Some s -> h !! d = Some s' ->
  include self d h = Some (Ok tt, <[self := mkDockerfile (_lines s ++ _lines s')]> h).
Proof. intros H1 H2. unfold include. now rewrite H1, H2. Qed.

End Heap.

(** ** The claims *)

Section Claims.

(** C1.  The shell form is as specified: with no additional argument CMD,
    RUN and ENTRYPOINT append [<KEYWORD> <command>].  With at least one
    additional argument the three methods raise [TypeError] and append
    nothing, because the list [[command]] is added to the tuple of the
    variadic arguments; [CMD("echo", "hi")] does not append
    [CMD ["echo", "hi"]]. *)
Theorem C1_exec_form_raises_TypeError :
  (forall command self,
      CMD command [] self = (Ok tt, appended self (lit "CMD " ++ command)) /\
      RUN command [] self = (Ok tt, appended self (lit "RUN " ++ command)) /\
      ENTRYPOINT command [] self
      = (Ok tt, appended self (lit "ENTRYPOINT " ++ command))) /\
  (forall command a args self,
      CMD command (a :: args) self = (Raise TypeError, self) /\
      RUN command (a :: args) self = (Raise TypeError, self) /\
      ENTRYPOINT command (a :: args) self = (Raise TypeError, self)) /\
  CMD (lit "echo hi") [] (__init__ None None)
  = (Ok tt, mkDockerfile [lit "CMD echo hi"]) /\
  CMD (lit "echo") [lit "hi"] (__init__ None None)
  = (Raise TypeError, __init__ None None) /\
  CMD (lit "echo") [lit "hi"] (__init__ None None)
  <> (Ok tt, mkDockerfile [lit "CMD " ++ json_array_of [lit "echo"; lit "hi"]]).
Proof.
  split; [|split; [|split; [|split]]].
  - intros command self. repeat split; reflexivity.
  - intros command a args self. repeat split; reflexivity.
  - reflexivity.
  - reflexivity.
  - discriminate.
Qed.

(** C2.  Among the methods other than COPY, those that add a list to the
    tuple of their variadic arguments (SHELL and VOLUME always; CMD, RUN and
    ENTRYPOINT with an additional argument) raise [TypeError] on well-typed
    arguments and append nothing; EXPOSE raises [ValueError] and appends
    nothing when the port has more digits than the interpreter converts to
    text; every other call appends exactly one line.  [SHELL("/bin/sh")]
    raises. *)
Theorem C2_variadic_methods_raise :
  (forall c self,
      if is_COPY c then True
      else if adds_tuple c then invoke c self = (Raise TypeError, self)
      else if port_too_long c then invoke c self = (Raise ValueError, self)
      else exists line, invoke c self = (Ok tt, appended self line)) /\
  SHELL (lit "/bin/sh") [] (__init__ None None)
  = (Raise TypeError, __init__ None None).
Proof.
  split; [|reflexivity].
  intros c self.
  destruct c as [src dest chown|varname [d|]|src dest from_ chown|command [|a args]
                |command [|a args]|varname value|port protocol|base as_image platform
                |key value|command [|a args]|executable params|user group|path paths
                |path]; simpl;
    try first [exact I | reflexivity | eexists; run_meth; reflexivity].
  unfold EXPOSE, bind, eval, lines_append, appended, int_str.
  destruct (too_many_digits port); [reflexivity|eexists; reflexivity].
Qed.

(** C3.  SHELL and VOLUME raise [TypeError] for every executable or path and
    every sequence of further arguments, the empty one included, and leave
    the builder as it was: neither appends the array form. *)
Theorem C3_SHELL_VOLUME_raise_TypeError :
  forall (first : str) (rest : list str) (self : Dockerfile),
    SHELL first rest self = (Raise TypeError, self) /\
    VOLUME first rest self = (Raise TypeError, self) /\
    SHELL first rest self
    <> (Ok tt, appended self (lit "SHELL " ++ json_array_of (first :: rest))) /\
    VOLUME first rest self
    <> (Ok tt, appended self (lit "VOLUME " ++ json_array_of (first :: rest))).
Proof.
  intros first rest self. repeat split; try reflexivity; discriminate.
Qed.

(** C4.  After a sequence of directive calls that all succeed, each call
    has appended one line, the builder holds these lines after the ones it
    held before, in call order, and [str(self)] is their concatenation with
    nothing in between; on a builder that held no line it is exactly the
    concatenation of the appended lines. *)
Theorem C4_render_is_concatenation_in_call_order :
  forall (cs : list call) (self self' : Dockerfile),
    invoke_all cs self = (Ok tt, self') ->
    exists ls : list str,
      Forall2 (fun c line => forall b, invoke c b = (Ok tt, appended b line)) cs ls /\
      _lines self' = _lines self ++ ls /\
      (exists before, __str__ self = (Ok before, self) /\
                      __str__ self' = (Ok (before ++ concat ls), self')) /\
      (_lines self = [] -> __str__ self' = (Ok (concat ls), self')).
Proof.
  intros cs self self' H.
  destruct (invoke_all_lines cs self self' H) as (ls & HF & Hls).
  exists ls. repeat split; try assumption.
  - exists (concat (_lines self)). unfold __str__.
    rewrite !str_join_empty_sep, Hls, concat_app. split; reflexivity.
  - intros Hnil. unfold __str__. rewrite str_join_empty_sep, Hls, Hnil. reflexivity.
Qed.

Lemma C4_witness :
  invoke_all [cFROM (lit "python:3.11") None None; cWORKDIR (lit "/app")]
             (__init__ None None)
  = (Ok tt, mkDockerfile [lit "FROM python:3.11"; lit "WORKDIR /app"]) /\
  exists ls : list str,
    Forall2 (fun c line => forall b, invoke c b = (Ok tt, appended b line))
            [cFROM (lit "python:3.11") None None; cWORKDIR (lit "/app")] ls /\
    _lines (mkDockerfile [lit "FROM python:3.11"; lit "WORKDIR /app"])
    = _lines (__init__ None None) ++ ls /\
    (exists before,
        __str__ (__init__ None None) = (Ok before, __init__ None None) /\
        __str__ (mkDockerfile [lit "FROM python:3.11"; lit "WORKDIR /app"])
        = (Ok (before ++ concat ls),
           mkDockerfile [lit "FROM python:3.11"; lit "WORKDIR /app"])) /\
    (_lines (__init__ None None) = [] ->
     __str__ (mkDockerfile [lit "FROM python:3.11"; lit "WORKDIR /app"])
     = (Ok (concat ls), mkDockerfile [lit "FROM python:3.11"; lit "WORKDIR /app"])).
Proof.
  split; [reflexivity|].
  apply (C4_render_is_concatenation_in_call_order
           [cFROM (lit "python:3.11") None None; cWORKDIR (lit "/app")]
           (__init__ None None)).
  reflexivity.
Defined.

(** C5.  [include] appends to the target the lines the other builder holds
    at the call: the target then renders as its render before the call
    followed by the render of the other builder at the call.  When the other
    builder is a different object, whatever is done to it afterwards
    (directive calls on it, other builders included into it, failed calls)
    leaves the render of the target as it was. *)
Theorem C5_include_copies_lines :
  forall (h : heap) (target other : ref) (t o : Dockerfile),
    h !! target = Some t ->
    h !! other = Some o ->
    exists (h1 : heap) (pre inc : str),
      render target h = Some (Ok pre, h) /\
      render other h = Some (Ok inc, h) /\
      include target other h = Some (Ok tt, h1) /\
      render target h1 = Some (Ok (pre ++ inc), h1) /\
      (target <> other ->
       forall sts : list stmt,
         Forall (fun st => receiver st = other) sts ->
         Forall (fun st => Forall (fun x => x ∈ dom h) (mentions st)) sts ->
         exists h2 : heap,
           exec_all sts h1 = Some h2 /\
           render target h2 = Some (Ok (pre ++ inc), h2)).
Proof.
  intros h target other t o Ht Ho.
  set (t' := mkDockerfile (_lines t ++ _lines o)).
  assert (Ht' : <[target := t']> h !! target = Some t') by apply lookup_insert_eq.
  exists (<[target := t']> h), (concat (_lines t)), (concat (_lines o)).
  split; [now apply render_live|].
  split; [now apply render_live|].
  split; [now apply include_live|].
  split.
  - rewrite (render_live _ _ _ Ht'). simpl. now rewrite concat_app.
  - intros Hne sts Hrecv Hlive.
    destruct (exec_all_frame sts target (<[target := t']> h)) as (h2 & E & Hb & _).
    + eapply Forall_impl; [exact Hrecv|]. simpl. intros st ->. congruence.
    + eapply Forall_impl; [exact Hlive|]. simpl. intros st Hst.
      eapply Forall_impl; [exact Hst|]. simpl. intros x Hx.
      rewrite dom_insert_L. set_solver.
    + exists h2. split; [exact E|].
      rewrite <- Hb in Ht'. rewrite (render_live _ _ _ Ht'). simpl.
      now rewrite concat_app.
Qed.

Lemma C5_witness :
  let h : heap := <[1%positive := mkDockerfile [lit "FROM a"]]>
                    (<[2%positive := mkDockerfile [lit "RUN b"]]> ∅) in
  h !! 1%positive = Some (mkDockerfile [lit "FROM a"]) /\
  h !! 2%positive = Some (mkDockerfile [lit "RUN b"]) /\
  exists (h1 : heap) (pre inc : str),
    render 1%positive h = Some (Ok pre, h) /\
    render 2%positive h = Some (Ok inc, h) /\
    include 1%positive 2%positive h = Some (Ok tt, h1) /\
    render 1%positive h1 = Some (Ok (pre ++ inc), h1) /\
    (1%positive <> 2%positive ->
     forall sts : list stmt,
       Forall (fun st => receiver st = 2%positive) sts ->
       Forall (fun st => Forall (fun x => x ∈ dom h) (mentions st)) sts ->
       exists h2 : heap,
         exec_all sts h1 = Some h2 /\
         render 1%positive h2 = Some (Ok (pre ++ inc), h2)).
Proof.
  intros h.
  assert (H1 : h !! 1%positive = Some (mkDockerfile [lit "FROM a"]))
    by reflexivity.
  assert (H2 : h !! 2%positive = Some (mkDockerfile [lit "RUN b"]))
    by reflexivity.
  split; [exact H1|]. split; [exact H2|].
  exact (C5_include_copies_lines h 1%positive 2%positive _ _ H1 H2).
Defined.

(** C6.  With a single string as [src], COPY appends
    [COPY [--from=<stage> ][--chown=<owner> ]<src> <dest>]; with a list of
    strings it appends the same option clauses followed by the JSON array
    of the items of [src] and then [dest].  Each clause is there only when
    its argument is given. *)
Theorem C6_COPY_format :
  (forall (s dest : str) (from_ chown : option str) (self : Dockerfile),
      COPY (VStr s) dest from_ chown self
      = (Ok tt, appended self (lit "COPY " ++ clause (lit "--from=") from_
                                 ++ clause (lit "--chown=") chown
                                 ++ s ++ lit " " ++ dest))) /\
  (forall (l : list str) (dest : str) (from_ chown : option str) (self : Dockerfile),
      COPY (VList (map VStr l)) dest from_ chown self
      = (Ok tt, appended self (lit "COPY " ++ clause (lit "--from=") from_
                                 ++ clause (lit "--chown=") chown
                                 ++ json_array_of (l ++ [dest])))) /\
  COPY (VList [VStr (lit "a.txt"); VStr (lit "b.txt")]) (lit "/dest/") None None
       (__init__ None None)
  = (Ok tt, mkDockerfile [lit "COPY [" ++ q "a.txt" ++ lit ", " ++ q "b.txt"
                            ++ lit ", " ++ q "/dest/" ++ lit "]"]) /\
  COPY (VStr (lit "a.txt")) (lit "/dest/") None None (__init__ None None)
  = (Ok tt, mkDockerfile [lit "COPY a.txt /dest/"]) /\
  COPY (VStr (lit "a.txt")) (lit "/dest/") (Some (lit "build")) (Some (lit "1:1"))
       (__init__ None None)
  = (Ok tt, mkDockerfile [lit "COPY --from=build --chown=1:1 a.txt /dest/"]).
Proof.
  split; [|split; [|repeat split]].
  - intros s dest [f|] [c|] self; reflexivity.
  - intros l dest from_ chown self. unfold COPY, bind, eval, list_add.
    change [VStr dest] with (map VStr [dest]).
    rewrite <- map_app. cbv beta iota delta [rbind].
    rewrite dumps_str_list.
    destruct from_, chown; reflexivity.
Qed.



(** C8.  Rendering a builder returns a string and the heap it was given:
    no builder changes.  Two renders in a row return the same string.  A
    directive call after the render does what it would have done without
    it, and a line can still be appended. *)
Theorem C8_render_is_pure_and_repeatable :
  forall (h : heap) (b : ref) (s : Dockerfile),
    h !! b = Some s ->
    exists out : str,
      render b h = Some (Ok out, h) /\
      render_twice b h = Some (Ok out, Ok out, h) /\
      (forall c : call,
          match render b h with
          | Some (_, h') => send b (invoke c) h' = send b (invoke c) h
          | None => False
          end) /\
      (forall line : str,
          match render b h with
          | Some (_, h') =>
              send b (lines_append line) h' = Some (Ok tt, <[b := appended s line]> h)
          | None => False
          end).
Proof.
  intros h b s Hb. exists (concat (_lines s)).
  pose proof (render_live b h s Hb) as Hr.
  split; [exact Hr|]. split.
  - unfold render_twice. now rewrite Hr, Hr.
  - split; intros x; rewrite Hr; [reflexivity|].
    now rewrite (send_live _ _ _ _ Hb).
Qed.

Lemma C8_witness :
  let h : heap := <[1%positive := mkDockerfile [lit "FROM a"; lit "RUN b"]]> ∅ in
  h !! 1%positive = Some (mkDockerfile [lit "FROM a"; lit "RUN b"]) /\
  exists out : str,
    render 1%positive h = Some (Ok out, h) /\
    render_twice 1%positive h = Some (Ok out, Ok out, h) /\
    (forall c : call,
        match render 1%positive h with
        | Some (_, h') =>
            send 1%positive (invoke c) h' = send 1%positive (invoke c) h
        | None => False
        end) /\
    (forall line : str,
        match render 1%positive h with
        | Some (_, h') =>
            send 1%positive (lines_append line) h'
            = Some (Ok tt, <[1%positive :=
                               appended (mkDockerfile [lit "FROM a"; lit "RUN b"]) line]> h)
        | None => False
        end).
Proof.
  intros h.
  assert (H1 : h !! 1%positive = Some (mkDockerfile [lit "FROM a"; lit "RUN b"]))
    by reflexivity.
  split; [exact H1|].
  exact (C8_render_is_pure_and_repeatable h 1%positive _ H1).
Defined.

(** C9.  FROM appends [FROM ] followed by the platform clause
    [--platform=<platform>] when a platform is given, then the base image
    with nothing in between, then [ as <aliasName>] when an alias is
    given. *)
Theorem C9_FROM_format :
  (forall (base_image : str) (self : Dockerfile),
      FROM base_image None None self
      = (Ok tt, appended self (lit "FROM " ++ base_image)) /\
      (forall a, FROM base_image (Some a) None self
                 = (Ok tt, appended self (lit "FROM " ++ base_image ++ lit " as " ++ a))) /\
      (forall p, FROM base_image None (Some p) self
                 = (Ok tt, appended self (lit "FROM --platform=" ++ p ++ base_image))) /\
      (forall a p, FROM base_image (Some a) (Some p) self
                   = (Ok tt, appended self (lit "FROM --platform=" ++ p ++ base_image
                                              ++ lit " as " ++ a)))) /\
  FROM (lit "python:3.11") (Some (lit "builder")) None (__init__ None None)
  = (Ok tt, mkDockerfile [lit "FROM python:3.11 as builder"]) /\
  FROM (lit "python:3.11") None (Some (lit "linux/amd64")) (__init__ None None)
  = (Ok tt, mkDockerfile [lit "FROM --platform=linux/amd64python:3.11"]).
Proof.
  split; [|split; reflexivity].
  intros base_image self. unfold FROM, lines_append, appended. simpl.
  repeat split; intros; try rewrite app_nil_r; try rewrite <- !app_assoc;
    reflexivity.
Qed.

(** C10.  Including a builder into itself appends the lines it holds at
    the call: it then holds them twice and renders as its previous render
    twice over.  A directive call that follows appends its line once. *)
Theorem C10_self_include_doubles :
  forall (h : heap) (b : ref) (s : Dockerfile),
    h !! b = Some s ->
    exists (h1 : heap) (pre : str),
      render b h = Some (Ok pre, h) /\
      include b b h = Some (Ok tt, h1) /\
      h1 !! b = Some (mkDockerfile (_lines s ++ _lines s)) /\
      render b h1 = Some (Ok (pre ++ pre), h1) /\
      (forall (c : call) (line : str),
          (forall x, invoke c x = (Ok tt, appended x line)) ->
          exists h2 : heap,
            send b (invoke c) h1 = Some (Ok tt, h2) /\
            h2 !! b = Some (mkDockerfile (_lines s ++ _lines s ++ [line])) /\
            render b h2 = Some (Ok (pre ++ pre ++ line), h2)).
Proof.
  intros h b s Hb.
  set (s2 := mkDockerfile (_lines s ++ _lines s)).
  assert (Hb1 : <[b := s2]> h !! b = Some s2) by apply lookup_insert_eq.
  exists (<[b := s2]> h), (concat (_lines s)).
  split; [now apply render_live|].
  split; [now apply include_live|].
  split; [exact Hb1|].
  split.
  - rewrite (render_live _ _ _ Hb1). simpl. now rewrite concat_app.
  - intros c line Hc.
    set (s3 := mkDockerfile (_lines s ++ _lines s ++ [line])).
    assert (Hb2 : <[b := s3]> (<[b := s2]> h) !! b = Some s3)
      by apply lookup_insert_eq.
    exists (<[b := s3]> (<[b := s2]> h)).
    split; [|split; [exact Hb2|]].
    + rewrite (send_live _ _ _ _ Hb1), Hc. simpl. unfold appended, s3. simpl.
      now rewrite <- app_assoc.
    + rewrite (render_live _ _ _ Hb2). simpl.
      rewrite !concat_app. simpl. now rewrite app_nil_r.
Qed.

Lemma C10_witness :
  let h : heap := <[1%positive := mkDockerfile [lit "FROM a"; lit "RUN b"]]> ∅ in
  h !! 1%positive = Some (mkDockerfile [lit "FROM a"; lit "RUN b"]) /\
  exists (h1 : heap) (pre : str),
    render 1%positive h = Some (Ok pre, h) /\
    include 1%positive 1%positive h = Some (Ok tt, h1) /\
    h1 !! 1%positive
    = Some (mkDockerfile (_lines (mkDockerfile [lit "FROM a"; lit "RUN b"])
                            ++ _lines (mkDockerfile [lit "FROM a"; lit "RUN b"]))) /\
    render 1%positive h1 = Some (Ok (pre ++ pre), h1) /\
    (forall (c : call) (line : str),
        (forall x, invoke c x = (Ok tt, appended x line)) ->
        exists h2 : heap,
          send 1%positive (invoke c) h1 = Some (Ok tt, h2) /\
          h2 !! 1%positive
          = Some (mkDockerfile (_lines (mkDockerfile [lit "FROM a"; lit "RUN b"])
                                  ++ _lines (mkDockerfile [lit "FROM a"; lit "RUN b"])
                                  ++ [line])) /\
          render 1%positive h2 = Some (Ok (pre ++ pre ++ line), h2)).
Proof.
  intros h.
  assert (H1 : h !! 1%positive = Some (mkDockerfile [lit "FROM a"; lit "RUN b"]))
    by reflexivity.
  split; [exact H1|].
  exact (C10_self_include_doubles h 1%positive _ H1).
Defined.

End Claims.

(** ** JSON text is printable ASCII *)

Section Printable.

Lemma all_printable_app (a b : str) :
  all_printable (a ++ b) = all_printable a && all_printable b.
Proof. apply forallb_app. Qed.

Lemma all_printable_concat (xs : list str) :
  Forall (fun x => all_printable x = true) xs -> all_printable (concat xs) = true.
Proof.
  induction 1 as [|x xs Hx _ IH]; simpl; [reflexivity|].
  now rewrite all_printable_app, Hx, IH.
Qed.

Lemma all_printable_join (sep : str) (xs : list str) :
  all_printable sep = true ->
  Forall (fun x => all_printable x = true) xs ->
  all_printable (str_join sep xs) = true.
Proof.
  intros Hsep. induction 1 as [|x xs Hx Hxs IH]; [reflexivity|].
  simpl. destruct xs as [|y ys]; [exact Hx|].
  now rewrite !all_printable_app, Hx, Hsep, IH.
Qed.

Lemma not_printable_notin (ch : N) (s : str) :
  printable ch = false -> all_printable s = true -> ch ∉ s.
Proof.
  intros Hch Hs Hin. unfold all_printable in Hs.
  rewrite forallb_forall in Hs. apply list_elem_of_In in Hin.
  rewrite (Hs _ Hin) in Hch. discriminate.
Qed.

Lemma hex_digit_printable (n : N) : n < 16 -> printable (hex_digit n) = true.
Proof.
  intros Hn. unfold hex_digit, printable.
  destruct (N.ltb_spec n 10); apply andb_true_intro; split; apply N.leb_le; lia.
Qed.

Lemma nibble_bound (n : N) : N.land n 15 < 16.
Proof.
  change 15 with (N.ones 4). rewrite N.land_ones.
  apply N.mod_lt. discriminate.
Qed.

Lemma u_escape_printable (n : N) : all_printable (u_escape n) = true.
Proof.
  unfold u_escape, hex4, all_printable. simpl.
  now rewrite !hex_digit_printable by apply nibble_bound.
Qed.

Lemma escape_char_printable (c : N) : all_printable (escape_char c) = true.
Proof.
  unfold escape_char.
  repeat (match goal with |- context [if ?b then _ else _] => destruct b eqn:? end;
          try reflexivity).
  - unfold all_printable. simpl. unfold printable.
    now match goal with H : _ && _ = true |- _ => rewrite H end.
  - apply u_escape_printable.
  - now rewrite all_printable_app, !u_escape_printable.
Qed.

Lemma escaped_printable (s : str) :
  all_printable (concat (map escape_char s)) = true.
Proof.
  apply all_printable_concat, Forall_forall. intros x Hx.
  apply list_elem_of_In, in_map_iff in Hx.
  destruct Hx as (c & <- & _). apply escape_char_printable.
Qed.

Lemma json_quoted_printable (s : str) : all_printable (json_quoted s) = true.
Proof.
  unfold json_quoted, encode_basestring_ascii.
  change (34 :: concat (map escape_char s) ++ [34])
    with ([34] ++ concat (map escape_char s) ++ [34]).
  rewrite !all_printable_app, all_printable_concat; [reflexivity|].
  apply Forall_forall. intros x Hx. apply list_elem_of_In, in_map_iff in Hx.
  destruct Hx as (c & <- & _). apply escape_char_printable.
Qed.

Lemma uint_digits_printable (d : Decimal.uint) :
  all_printable (lit (NilEmpty.string_of_uint d)) = true.
Proof. induction d; simpl; try assumption; reflexivity. Qed.

Lemma int_text_printable (z : Z) : all_printable (int_text z) = true.
Proof.
  unfold int_text.
  assert (Hu : forall d, all_printable (lit (NilZero.string_of_uint d)) = true).
  { intros d. destruct d; try reflexivity; apply (uint_digits_printable (_ d)). }
  destruct (Z.to_int z) as [d|d]; simpl; [apply Hu|].
  change (all_printable ([45] ++ lit (NilZero.string_of_uint d)) = true).
  now rewrite all_printable_app, Hu.
Qed.

Lemma int_str_printable (z : Z) (s : str) :
  int_str z = Ok s -> all_printable s = true.
Proof.
  unfold int_str. destruct (too_many_digits z); [discriminate|].
  intros [= <-]. apply int_text_printable.
Qed.

Lemma array_printable (chunks : list str) :
  Forall (fun x => all_printable x = true) chunks ->
  all_printable (array chunks) = true.
Proof.
  intros H. unfold array.
  change (91 :: str_join (lit ", ") chunks ++ [93])
    with ([91] ++ str_join (lit ", ") chunks ++ [93]).
  now rewrite !all_printable_app, all_printable_join.
Qed.

(** Whatever [json.dumps] returns is printable ASCII. *)
Lemma dumps_printable : forall (v : value) (out : str),
  dumps v = Ok out -> all_printable out = true.
Proof.
  fix IH 1. intros v out.
  assert (Hseq : forall l chunks,
             (forall x, In x l -> forall o, dumps x = Ok o -> all_printable o = true) ->
             rmap dumps l = Ok chunks ->
             Forall (fun x => all_printable x = true) chunks).
  { clear. induction l as [|x xs IHl]; simpl; intros chunks Hl E.
    - injection E as <-. constructor.
    - destruct (dumps x) as [y|] eqn:Ex; [|discriminate].
      destruct (rmap dumps xs) as [ys|] eqn:Exs; [|discriminate].
      injection E as <-. constructor; [eapply Hl; eauto|].
      apply IHl; [|reflexivity]. intros x' Hx'. apply Hl. now right. }
  destruct v as [|b|z|s|b|l|l]; simpl; intros E.
  - injection E as <-. reflexivity.
  - injection E as <-. now destruct b.
  - now apply (int_str_printable z).
  - injection E as <-. apply json_quoted_printable.
  - discriminate.
  - destruct (rmap dumps l) as [chunks|] eqn:El; simpl in E; [|discriminate].
    injection E as <-. apply array_printable, (Hseq l); [|exact El].
    clear -IH. induction l as [|x xs IHl]; intros x' Hx'; [destruct Hx'|].
    destruct Hx' as [<-|Hx']; [apply IH|now apply IHl].
  - destruct (rmap dumps l) as [chunks|] eqn:El; simpl in E; [|discriminate].
    injection E as <-. apply array_printable, (Hseq l); [|exact El].
    clear -IH. induction l as [|x xs IHl]; intros x' Hx'; [destruct Hx'|].
    destruct Hx' as [<-|Hx']; [apply IH|now apply IHl].
Qed.

End Printable.

(** Shows that a character outside printable ASCII is in none of the parts
    of a line: literals, JSON text, decimal numbers, and the parts the
    context says it is not in. *)
Ltac clean_line Hch :=
  repeat first
    [ assumption
    | apply not_elem_of_nil
    | apply not_elem_of_app; split
    | apply not_elem_of_cons; split; [intros ->; discriminate Hch|]
    | apply (not_printable_notin _ _ Hch); first [apply json_quoted_printable
                                                  | apply escaped_printable
                                                  | apply int_text_printable
                                                  | reflexivity ] ].

(** ** What a call appends *)

Section Lines.

Lemma line_of_Some (c : call) (line : str) :
  line_of c = Some line ->
  forall self, invoke c self = (Ok tt, appended self line).
Proof.
  intros H self. unfold line_of in H.
  destruct (invoke_cases c) as [[l Hl]|[e He]].
  - rewrite Hl in H. simpl in H. injection H as <-. apply Hl.
  - rewrite He in H. discriminate.
Qed.

Lemma line_of_None (c : call) :
  line_of c = None ->
  exists e, forall self, invoke c self = (Raise e, self).
Proof.
  intros H. unfold line_of in H.
  destruct (invoke_cases c) as [[l Hl]|[e He]].
  - rewrite Hl in H. discriminate.
  - now exists e.
Qed.

Lemma invoke_Ok_line_of (c : call) (self self' : Dockerfile) :
  invoke c self = (Ok tt, self') ->
  exists line, line_of c = Some line /\ self' = appended self line.
Proof.
  intros H. destruct (line_of c) as [line|] eqn:E.
  - exists line. split; [reflexivity|].
    rewrite (line_of_Some c line E) in H. congruence.
  - destruct (line_of_None c E) as [e He]. rewrite He in H. discriminate.
Qed.

Lemma invoke_all_line_of (cs : list call) :
  forall self self',
    invoke_all cs self = (Ok tt, self') ->
    exists ls,
      Forall2 (fun c line => line_of c = Some line) cs ls /\
      _lines self' = _lines self ++ ls.
Proof.
  induction cs as [|c cs IH]; intros self self' H; simpl in H.
  - exists []. split; [constructor|]. injection H as <-. now rewrite app_nil_r.
  - unfold bind in H. destruct (invoke c self) as [[[]|e] s1] eqn:E; [|discriminate].
    destruct (invoke_Ok_line_of _ _ _ E) as (line & Hline & ->).
    destruct (IH _ _ H) as (ls & HF & Hls).
    exists (line :: ls). split; [now constructor|].
    rewrite Hls. simpl. now rewrite <- app_assoc.
Qed.

Lemma invoke_all_replay (cs : list call) (ls : list str) :
  Forall2 (fun c line => line_of c = Some line) cs ls ->
  forall self, invoke_all cs self = (Ok tt, mkDockerfile (_lines self ++ ls)).
Proof.
  induction 1 as [|c line cs ls Hc _ IH]; intros self; simpl.
  - unfold ret. rewrite app_nil_r. now destruct self.
  - unfold bind. rewrite (line_of_Some c line Hc), IH. simpl.
    now rewrite <- app_assoc.
Qed.

(** The line of EXPOSE, and when there is one. *)
Lemma EXPOSE_line (port : Z) (protocol : option str) (line : str) :
  line_of (cEXPOSE port protocol) = Some line ->
  too_many_digits port = false /\
  line = lit "EXPOSE " ++ int_text port ++ lit "/" ++ default (lit "tcp") protocol.
Proof.
  unfold line_of, invoke, EXPOSE, bind, eval, lines_append, int_str.
  destruct (too_many_digits port); [discriminate|].
  simpl. intros [= <-]. now split.
Qed.

End Lines.

(** ** Statements only add lines *)

Section Growth.

(** One statement adds lines at the end of a builder, or none. *)
Lemma exec_grows (st : stmt) (h h' : heap) (r : result unit) (b : ref) (s : Dockerfile) :
  exec st h = Some (r, h') ->
  h !! b = Some s ->
  exists (s' : Dockerfile) (added : list str),
    h' !! b = Some s' /\ _lines s' = _lines s ++ added.
Proof.
  intros E Hb. destruct (decide (receiver st = b)) as [<-|Hne].
  - destruct st as [self c|self d]; simpl in *.
    + rewrite (send_live _ _ _ _ Hb) in E. injection E as _ <-.
      rewrite lookup_insert_eq.
      destruct (invoke_cases c) as [[line Hl]|[e He]].
      * rewrite Hl. simpl. eauto.
      * rewrite He. simpl. exists s, []. now rewrite app_nil_r.
    + unfold include in E. rewrite Hb in E.
      destruct (h !! d) as [sd|]; [|discriminate].
      injection E as _ <-. rewrite lookup_insert_eq. simpl. eauto.
  - rewrite <- (exec_frame st h h' r b E Hne) in Hb.
    exists s, []. now rewrite app_nil_r.
Qed.

End Growth.

(** ** Lines hold what the caller passed, and printable ASCII *)

Section Clean.

Local Arguments lit : simpl never.
Local Arguments encode_basestring_ascii : simpl never.
Local Arguments int_text : simpl never.

(** The line of a call holds no character outside printable ASCII that its
    verbatim arguments do not hold. *)
Lemma line_is_clean (ch : N) (c : call) (line : str) :
  printable ch = false ->
  Forall (fun s => ch ∉ s) (verbatim c) ->
  line_of c = Some line ->
  ch ∉ line.
Proof.
  intros Hch Hv H.
  destruct c as [src dest [chown|]|varname [d|]|src dest [from_|] [chown|]
                |command [|a args]|command [|a args]|varname value|port [protocol|]
                |base [as_image|] [platform|]|key value|command [|a args]
                |executable params|user [group|]|path paths|path];
    try solve [ apply EXPOSE_line in H as [_ ->]; simpl in Hv;
                repeat (apply Forall_cons in Hv as [? Hv]); simpl;
                clean_line Hch ];
    unfold line_of in H; simpl in H; try discriminate;
    try (injection H as <-; simpl in Hv;
         repeat (apply Forall_cons in Hv as [? Hv]);
         clean_line Hch).
  all: destruct src as [| | |s| |l|l]; try discriminate.
  all: try (injection H as <-; simpl in Hv;
            repeat (apply Forall_cons in Hv as [? Hv]);
            clean_line Hch).
  all: unfold COPY, bind, eval, list_add in H; cbv beta iota delta [rbind] in H;
    destruct (dumps (VList (l ++ [VStr dest]))) as [a|e] eqn:E; [|discriminate];
    injection H as <-; simpl in Hv;
    repeat (apply Forall_cons in Hv as [? Hv]);
    pose proof (not_printable_notin ch a Hch (dumps_printable _ _ E));
    clean_line Hch.
Qed.

End Clean.

(** ** [str(int)] can be read back *)

Section Decimal.

Lemma lit_inj (a b : string) : lit a = lit b -> a = b.
Proof.
  revert b. induction a as [|x a IH]; intros [|y b]; simpl; try discriminate.
  - reflexivity.
  - intros [= Hxy Hab]. f_equal; [|now apply IH].
    rewrite <- (ascii_N_embedding x), <- (ascii_N_embedding y). now rewrite Hxy.
Qed.

Lemma to_int_nonnil (z : Z) :
  Z.to_int z <> Decimal.Pos Decimal.Nil /\ Z.to_int z <> Decimal.Neg Decimal.Nil.
Proof.
  destruct z as [|p|p]; simpl; split; try discriminate;
    intros [= H]; now apply (DecimalPos.Unsigned.to_uint_nonnil p).
Qed.

Lemma int_text_inj (a b : Z) : int_text a = int_text b -> a = b.
Proof.
  unfold int_text. intros H. apply lit_inj in H.
  destruct (to_int_nonnil a) as [Ha1 Ha2].
  destruct (to_int_nonnil b) as [Hb1 Hb2].
  pose proof (NilZero.isi (Z.to_int a) Ha1 Ha2) as Ia.
  pose proof (NilZero.isi (Z.to_int b) Hb1 Hb2) as Ib.
  rewrite H, Ib in Ia. injection Ia as Ia.
  rewrite <- (DecimalZ.of_to a), <- (DecimalZ.of_to b). now rewrite Ia.
Qed.

Lemma uint_digits_no_slash (d : Decimal.uint) :
  47 ∉ lit (NilEmpty.string_of_uint d).
Proof.
  induction d; simpl; try apply not_elem_of_nil;
    (apply not_elem_of_cons; split; [discriminate|assumption]).
Qed.

Lemma int_text_no_slash (z : Z) : 47 ∉ int_text z.
Proof.
  unfold int_text.
  assert (Hu : forall d, 47 ∉ lit (NilZero.string_of_uint d)).
  { intros d. destruct d; try apply (uint_digits_no_slash (_ d)).
    simpl. apply not_elem_of_cons; split; [discriminate|apply not_elem_of_nil]. }
  destruct (Z.to_int z) as [d|d]; simpl; [apply Hu|].
  apply not_elem_of_cons; split; [discriminate|apply Hu].
Qed.

(** Two texts cut at their first slash. *)
Lemma split_at_slash (a a' b b' : str) :
  47 ∉ a -> 47 ∉ a' ->
  a ++ lit "/" ++ b = a' ++ lit "/" ++ b' -> a = a' /\ b = b'.
Proof.
  revert a'. induction a as [|x a IH]; intros [|y a'] Ha Ha'; simpl; intros H.
  - injection H as H. now split.
  - injection H as <- _. exfalso. apply Ha'. left.
  - injection H as -> _. exfalso. apply Ha. left.
  - injection H as <- H.
    apply not_elem_of_cons in Ha as [_ Ha]. apply not_elem_of_cons in Ha' as [_ Ha'].
    destruct (IH a' Ha Ha' H) as [-> ->]. now split.
Qed.

End Decimal.

(** ** Further properties of the class *)

Section Properties.

(** X1.  A builder made with parser directives and then filled by calls
    that all return holds the syntax comment (when given), then the escape
    comment (when given), then the line of each call in call order, and
    renders as their concatenation. *)
Theorem header_comments_precede_directives :
  forall (syntax escape : option str) (cs : list call) (self' : Dockerfile),
    invoke_all cs (__init__ syntax escape) = (Ok tt, self') ->
    exists ls : list str,
      Forall2 (fun c line => line_of c = Some line) cs ls /\
      _lines self'
      = comment (lit "syntax") syntax ++ comment (lit "escape") escape ++ ls /\
      __str__ self'
      = (Ok (concat (comment (lit "syntax") syntax) ++
             concat (comment (lit "escape") escape) ++ concat ls), self').
Proof.
  intros syntax escape cs self' H.
  destruct (invoke_all_line_of cs _ _ H) as (ls & HF & Hls).
  exists ls. split; [exact HF|].
  assert (Hinit : _lines (__init__ syntax escape)
                  = comment (lit "syntax") syntax ++ comment (lit "escape") escape).
  { destruct syntax, escape; reflexivity. }
  rewrite Hinit, <- app_assoc in Hls. split; [exact Hls|].
  unfold __str__. now rewrite str_join_empty_sep, Hls, !concat_app.
Qed.

Lemma header_comments_precede_directives_witness :
  invoke_all [cWORKDIR (lit "/app")]
             (__init__ (Some (lit "docker/dockerfile:1")) None)
  = (Ok tt, mkDockerfile [lit "# syntax: docker/dockerfile:1"; lit "WORKDIR /app"]) /\
  exists ls : list str,
    Forall2 (fun c line => line_of c = Some line) [cWORKDIR (lit "/app")] ls /\
    _lines (mkDockerfile [lit "# syntax: docker/dockerfile:1"; lit "WORKDIR /app"])
    = comment (lit "syntax") (Some (lit "docker/dockerfile:1"))
        ++ comment (lit "escape") None ++ ls /\
    __str__ (mkDockerfile [lit "# syntax: docker/dockerfile:1"; lit "WORKDIR /app"])
    = (Ok (concat (comment (lit "syntax") (Some (lit "docker/dockerfile:1"))) ++
           concat (comment (lit "escape") None) ++ concat ls),
       mkDockerfile [lit "# syntax: docker/dockerfile:1"; lit "WORKDIR /app"]).
Proof.
  split; [reflexivity|].
  apply (header_comments_precede_directives
           (Some (lit "docker/dockerfile:1")) None [cWORKDIR (lit "/app")]).
  reflexivity.
Defined.

(** X2.  LABEL and ENV always return.  The line LABEL appends is printable
    ASCII throughout, whatever the key and the value hold; the value ENV
    writes after [=] is printable ASCII between two double quotes, at least
    as long as the value plus the quotes. *)
Theorem quoted_arguments_are_printable_ascii :
  (forall (key value : str) (self : Dockerfile),
      exists line,
        LABEL key value self = (Ok tt, appended self line) /\
        all_printable line = true) /\
  (forall (varname value : str) (self : Dockerfile),
      exists body,
        ENV varname value self
        = (Ok tt, appended self (lit "ENV " ++ varname ++ lit "=" ++ [34] ++ body ++ [34])) /\
        all_printable body = true /\
        (length value <= length body)%nat).
Proof.
  split.
  - intros key value self.
    exists (lit "LABEL " ++ json_quoted key ++ lit "=" ++ json_quoted value).
    split; [reflexivity|].
    rewrite !all_printable_app.
    now rewrite (json_quoted_printable key), (json_quoted_printable value).
  - intros varname value self. exists (concat (map escape_char value)).
    split; [reflexivity|]. split.
    + pose proof (json_quoted_printable value) as H.
      unfold json_quoted, encode_basestring_ascii in H.
      change (34 :: concat (map escape_char value) ++ [34])
        with ([34] ++ concat (map escape_char value) ++ [34]) in H.
      rewrite !all_printable_app in H.
      apply andb_prop in H as [_ H]. now apply andb_prop in H as [H _].
    + induction value as [|c value IH]; simpl; [lia|].
      rewrite length_app.
      assert (1 <= length (escape_char c))%nat; [|lia].
      unfold escape_char, u_escape, hex4.
      repeat (match goal with |- context [if ?b then _ else _] => destruct b end;
              simpl; try lia).
Qed.

(** X3.  ARG always returns, and a default value, the empty string
    included, is always written: the line with a default is never the line
    without one. *)
Theorem ARG_default_is_always_written :
  forall (varname d : str) (self : Dockerfile),
    ARG varname (Some d) self
    = (Ok tt, appended self (lit "ARG " ++ varname ++ lit "=" ++ json_quoted d)) /\
    ARG varname None self = (Ok tt, appended self (lit "ARG " ++ varname)) /\
    ARG varname (Some d) self <> ARG varname None self.
Proof.
  intros varname d self. split; [reflexivity|]. split.
  - unfold ARG, bind, ret, lines_append, appended. simpl. now rewrite app_nil_r.
  - unfold ARG, bind, ret, eval, lines_append. simpl. intros H.
    injection H as H. apply app_inv_head in H. injection H as H.
    apply app_inv_head in H. discriminate.
Qed.

(** X4.  The line EXPOSE appends determines the port and the protocol: two
    calls that append the same line were given the same port, negative
    ports included, and the same protocol, the default counting as
    [tcp]. *)
Theorem EXPOSE_line_determines_port_and_protocol :
  forall (p1 p2 : Z) (pr1 pr2 : option str) (self : Dockerfile) (line : str),
    EXPOSE p1 pr1 self = (Ok tt, appended self line) ->
    EXPOSE p2 pr2 self = (Ok tt, appended self line) ->
    p1 = p2 /\ default (lit "tcp") pr1 = default (lit "tcp") pr2.
Proof.
  intros p1 p2 pr1 pr2 self line H1 H2.
  destruct (invoke_Ok_line_of (cEXPOSE p1 pr1) _ _ H1) as (l1 & E1 & A1).
  destruct (invoke_Ok_line_of (cEXPOSE p2 pr2) _ _ H2) as (l2 & E2 & A2).
  apply (f_equal _lines) in A1, A2. simpl in A1, A2.
  apply app_inv_head in A1, A2. injection A1 as <-. injection A2 as <-.
  apply EXPOSE_line in E1 as [_ E1]. apply EXPOSE_line in E2 as [_ E2].
  rewrite E2 in E1. apply app_inv_head in E1.
  apply split_at_slash in E1; try apply int_text_no_slash.
  destruct E1 as [Hp Hpr]. split; [symmetry; now apply int_text_inj|now symmetry].
Qed.

Lemma EXPOSE_line_determines_port_and_protocol_witness :
  EXPOSE 80 None (__init__ None None)
  = (Ok tt, appended (__init__ None None) (lit "EXPOSE 80/tcp")) /\
  EXPOSE 80 (Some (lit "tcp")) (__init__ None None)
  = (Ok tt, appended (__init__ None None) (lit "EXPOSE 80/tcp")) /\
  (80%Z = 80%Z /\ default (lit "tcp") None = default (lit "tcp") (Some (lit "tcp"))).
Proof.
  split; [reflexivity|]. split; [reflexivity|].
  apply (EXPOSE_line_determines_port_and_protocol 80 80 None (Some (lit "tcp"))
           (__init__ None None) (lit "EXPOSE 80/tcp")); reflexivity.
Defined.

(** X5.  A builder included into another one is included as if its calls
    had been made on the other one: when [other] got its lines from calls
    that all returned on a new builder without parser directives, including
    it into [target] leaves [target] as these calls, made on [target],
    would have left it; [other], when it is another object, keeps its
    lines. *)
Theorem include_is_replay_of_calls :
  forall (h : heap) (target other : ref) (t o : Dockerfile) (cs : list call),
    h !! target = Some t ->
    h !! other = Some o ->
    invoke_all cs (__init__ None None) = (Ok tt, o) ->
    exists t' : Dockerfile,
      invoke_all cs t = (Ok tt, t') /\
      include target other h = Some (Ok tt, <[target := t']> h) /\
      (target <> other -> <[target := t']> h !! other = Some o).
Proof.
  intros h target other t o cs Ht Ho Hcs.
  destruct (invoke_all_line_of cs _ _ Hcs) as (ls & HF & Hls). simpl in Hls.
  exists (mkDockerfile (_lines t ++ ls)).
  split; [now apply invoke_all_replay|]. split.
  - rewrite (include_live _ _ _ _ _ Ht Ho). now rewrite Hls.
  - intros Hne. now rewrite lookup_insert_ne.
Qed.

Lemma include_is_replay_of_calls_witness :
  let h : heap := <[1%positive := mkDockerfile [lit "FROM a"]]>
                    (<[2%positive := mkDockerfile [lit "WORKDIR /app"]]> ∅) in
  h !! 1%positive = Some (mkDockerfile [lit "FROM a"]) /\
  h !! 2%positive = Some (mkDockerfile [lit "WORKDIR /app"]) /\
  invoke_all [cWORKDIR (lit "/app")] (__init__ None None)
  = (Ok tt, mkDockerfile [lit "WORKDIR /app"]) /\
  exists t' : Dockerfile,
    invoke_all [cWORKDIR (lit "/app")] (mkDockerfile [lit "FROM a"]) = (Ok tt, t') /\
    include 1%positive 2%positive h = Some (Ok tt, <[1%positive := t']> h) /\
    (1%positive <> 2%positive ->
     <[1%positive := t']> h !! 2%positive = Some (mkDockerfile [lit "WORKDIR /app"])).
Proof.
  intros h.
  assert (H1 : h !! 1%positive = Some (mkDockerfile [lit "FROM a"])) by reflexivity.
  assert (H2 : h !! 2%positive = Some (mkDockerfile [lit "WORKDIR /app"]))
    by reflexivity.
  assert (H3 : invoke_all [cWORKDIR (lit "/app")] (__init__ None None)
               = (Ok tt, mkDockerfile [lit "WORKDIR /app"])) by reflexivity.
  split; [exact H1|]. split; [exact H2|]. split; [exact H3|].
  exact (include_is_replay_of_calls h 1%positive 2%positive _ _ _ H1 H2 H3).
Defined.

(** X6.  Lines are only ever added at the end: whatever statements a caller
    runs (directive calls that return or raise, includes, on any builders),
    every builder that was there is still there and the lines it held are
    the first lines it holds afterwards, unchanged and in the same order. *)
Theorem lines_are_append_only :
  forall (sts : list stmt) (h h' : heap) (b : ref) (s : Dockerfile),
    exec_all sts h = Some h' ->
    h !! b = Some s ->
    exists (s' : Dockerfile) (added : list str),
      h' !! b = Some s' /\ _lines s' = _lines s ++ added.
Proof.
  induction sts as [|st sts IH]; intros h h' b s H Hb; simpl in H.
  - injection H as <-. exists s, []. split; [exact Hb|]. now rewrite app_nil_r.
  - destruct (exec st h) as [[r h1]|] eqn:E; [|discriminate].
    destruct (exec_grows st h h1 r b s E Hb) as (s1 & a1 & Hb1 & Hs1).
    destruct (IH h1 h' b s1 H Hb1) as (s' & a2 & Hb' & Hs').
    exists s', (a1 ++ a2). split; [exact Hb'|].
    now rewrite Hs', Hs1, <- app_assoc.
Qed.

Lemma lines_are_append_only_witness :
  let h : heap := <[1%positive := mkDockerfile [lit "FROM a"]]> ∅ in
  exec_all [SCall 1%positive (cWORKDIR (lit "/app")); SInclude 1%positive 1%positive] h
  = Some (<[1%positive := mkDockerfile [lit "FROM a"; lit "WORKDIR /app";
                                         lit "FROM a"; lit "WORKDIR /app"]]> h) /\
  h !! 1%positive = Some (mkDockerfile [lit "FROM a"]) /\
  exists (s' : Dockerfile) (added : list str),
    <[1%positive := mkDockerfile [lit "FROM a"; lit "WORKDIR /app";
                                  lit "FROM a"; lit "WORKDIR /app"]]> h !! 1%positive
    = Some s' /\
    _lines s' = _lines (mkDockerfile [lit "FROM a"]) ++ added.
Proof.
  intros h.
  assert (H1 : exec_all [SCall 1%positive (cWORKDIR (lit "/app"));
                         SInclude 1%positive 1%positive] h
               = Some (<[1%positive := mkDockerfile [lit "FROM a"; lit "WORKDIR /app";
                                                      lit "FROM a"; lit "WORKDIR /app"]]> h)).
  { unfold h. simpl. unfold send, include.
    rewrite !lookup_insert_eq. simpl.
    rewrite !lookup_insert_eq. simpl. now rewrite !insert_insert_eq. }
  assert (H2 : h !! 1%positive = Some (mkDockerfile [lit "FROM a"])) by reflexivity.
  split; [exact H1|]. split; [exact H2|].
  exact (lines_are_append_only _ h _ 1%positive _ H1 H2).
Defined.

(** X7.  A call that raises leaves no trace.  When a caller makes calls on
    one builder and goes on after each exception, the builder ends up with
    the lines it held followed by the lines of the calls that returned, in
    call order, and every other builder is as it was. *)
Theorem failed_calls_leave_no_trace :
  forall (cs : list call) (h : heap) (b : ref) (s : Dockerfile),
    h !! b = Some s ->
    exec_all (map (SCall b) cs) h
    = Some (<[b := mkDockerfile (_lines s ++ omap line_of cs)]> h).
Proof.
  induction cs as [|c cs IH]; intros h b s Hb; simpl.
  - rewrite app_nil_r. f_equal. symmetry. apply insert_id. now destruct s.
  - rewrite (send_live _ _ _ _ Hb).
    destruct (line_of c) as [line|] eqn:E.
    + rewrite (line_of_Some c line E). simpl.
      rewrite (IH _ b (appended s line)) by apply lookup_insert_eq.
      simpl. now rewrite insert_insert_eq, <- app_assoc.
    + destruct (line_of_None c E) as [e He]. rewrite He. simpl.
      rewrite (IH _ b s) by apply lookup_insert_eq.
      now rewrite insert_insert_eq.
Qed.

Lemma failed_calls_leave_no_trace_witness :
  let h : heap := <[1%positive := mkDockerfile [lit "FROM a"]]> ∅ in
  h !! 1%positive = Some (mkDockerfile [lit "FROM a"]) /\
  exec_all (map (SCall 1%positive)
                [cSHELL (lit "sh") []; cWORKDIR (lit "/app");
                 cCOPY (VInt 42) (lit "/dest/") None None]) h
  = Some (<[1%positive :=
              mkDockerfile (_lines (mkDockerfile [lit "FROM a"]) ++
                            omap line_of [cSHELL (lit "sh") []; cWORKDIR (lit "/app");
                                          cCOPY (VInt 42) (lit "/dest/") None None])]> h) /\
  omap line_of [cSHELL (lit "sh") []; cWORKDIR (lit "/app");
                cCOPY (VInt 42) (lit "/dest/") None None]
  = [lit "WORKDIR /app"].
Proof.
  intros h.
  assert (H1 : h !! 1%positive = Some (mkDockerfile [lit "FROM a"])) by reflexivity.
  split; [exact H1|]. split; [|reflexivity].
  exact (failed_calls_leave_no_trace _ h 1%positive _ H1).
Defined.

(** X8.  Every line a call appends starts with the name of the method in
    upper case followed by one space. *)
Theorem line_starts_with_keyword :
  forall (c : call) (line : str),
    line_of c = Some line ->
    exists rest : str, line = lit (keyword c) ++ lit " " ++ rest.
Proof.
  intros c line H.
  destruct c as [src dest chown|varname [d|]|src dest from_ chown|command [|a args]
                |command [|a args]|varname value|port protocol|base as_image platform
                |key value|command [|a args]|executable params|user group|path paths
                |path];
    try solve [ apply EXPOSE_line in H as [_ ->]; eexists; reflexivity ];
    unfold line_of in H; simpl in H;
    try discriminate;
    try (injection H as <-; eexists; reflexivity).
  destruct src as [| | |s| |l|l]; try discriminate.
  - injection H as <-. eexists; reflexivity.
  - unfold COPY, bind, eval, list_add in H. cbv beta iota delta [rbind] in H.
    destruct (dumps (VList (l ++ [VStr dest]))) as [a|e]; [|discriminate].
    injection H as <-. eexists; reflexivity.
Qed.

Lemma line_starts_with_keyword_witness :
  line_of (cUSER (lit "app") (Some (lit "staff"))) = Some (lit "USER app:staff") /\
  exists rest : str,
    lit "USER app:staff"
    = lit (keyword (cUSER (lit "app") (Some (lit "staff")))) ++ lit " " ++ rest.
Proof.
  split; [reflexivity|].
  apply (line_starts_with_keyword (cUSER (lit "app") (Some (lit "staff")))).
  reflexivity.
Defined.

(** X9.  No method adds a line break, and the render adds none between
    lines.  More generally, a character outside printable ASCII (a newline,
    say) occurs in the render of a builder only if it occurs in a parser
    directive or in an argument that a call wrote as it is; JSON-quoted
    arguments never bring one in. *)
Theorem render_has_no_character_the_caller_did_not_pass :
  forall (ch : N) (syntax escape : option str) (cs : list call)
         (self' : Dockerfile) (out : str),
    printable ch = false ->
    Forall (fun s => ch ∉ s) (option_list syntax ++ option_list escape) ->
    Forall (fun c => Forall (fun s => ch ∉ s) (verbatim c)) cs ->
    invoke_all cs (__init__ syntax escape) = (Ok tt, self') ->
    __str__ self' = (Ok out, self') ->
    ch ∉ out.
Proof.
  intros ch syntax escape cs self' out Hch Hhdr Hcs Hrun Hout.
  destruct (invoke_all_line_of cs _ _ Hrun) as (ls & HF & Hls).
  unfold __str__ in Hout. injection Hout as <-.
  rewrite str_join_empty_sep, Hls, concat_app.
  apply not_elem_of_app. split.
  - destruct syntax as [sy|], escape as [es|]; simpl in *;
      repeat (apply Forall_cons in Hhdr as [? Hhdr]);
      clean_line Hch.
  - clear Hls Hrun. induction HF as [|c line cs ls Hc _ IH]; simpl.
    + apply not_elem_of_nil.
    + apply Forall_cons in Hcs as [Hv Hcs].
      apply not_elem_of_app. split; [|now apply IH].
      now apply (line_is_clean ch c line).
Qed.

Lemma render_has_no_character_the_caller_did_not_pass_witness :
  printable 10 = false /\
  Forall (fun s => 10 ∉ s) (option_list (Some (lit "docker/dockerfile:1")) ++ option_list None) /\
  Forall (fun c => Forall (fun s => 10 ∉ s) (verbatim c))
         [cFROM (lit "python:3.11") None None; cLABEL [10] [10; 34]] /\
  invoke_all [cFROM (lit "python:3.11") None None; cLABEL [10] [10; 34]]
             (__init__ (Some (lit "docker/dockerfile:1")) None)
  = (Ok tt, mkDockerfile [lit "# syntax: docker/dockerfile:1"; lit "FROM python:3.11";
                          lit "LABEL " ++ [34; 92; 110; 34] ++ lit "="
                            ++ [34; 92; 110; 92; 34; 34]]) /\
  10 ∉ lit "# syntax: docker/dockerfile:1" ++ lit "FROM python:3.11"
         ++ lit "LABEL " ++ [34; 92; 110; 34] ++ lit "=" ++ [34; 92; 110; 92; 34; 34].
Proof.
  assert (H1 : printable 10 = false) by reflexivity.
  assert (H2 : Forall (fun s => 10 ∉ s)
                      (option_list (Some (lit "docker/dockerfile:1")) ++ option_list None)).
  { simpl. repeat constructor. apply not_printable_notin; reflexivity. }
  assert (H3 : Forall (fun c => Forall (fun s => 10 ∉ s) (verbatim c))
                      [cFROM (lit "python:3.11") None None; cLABEL [10] [10; 34]]).
  { simpl. repeat constructor. apply not_printable_notin; reflexivity. }
  assert (H4 : invoke_all [cFROM (lit "python:3.11") None None; cLABEL [10] [10; 34]]
                          (__init__ (Some (lit "docker/dockerfile:1")) None)
               = (Ok tt, mkDockerfile [lit "# syntax: docker/dockerfile:1";
                                       lit "FROM python:3.11";
                                       lit "LABEL " ++ [34; 92; 110; 34] ++ lit "="
                                         ++ [34; 92; 110; 92; 34; 34]]))
    by reflexivity.
  split; [exact H1|]. split; [exact H2|]. split; [exact H3|]. split; [exact H4|].
  apply (render_has_no_character_the_caller_did_not_pass 10 _ _ _ _ _ H1 H2 H3 H4).
  reflexivity.
Defined.

(** X10.  ADD writes what COPY writes for a single source path and no
    build stage, under its own keyword: the same owner clause, source and
    destination, character for character. *)
Theorem ADD_and_COPY_agree_after_the_keyword :
  forall (src dest : str) (chown : option str) (self : Dockerfile),
    exists rest : str,
      ADD src dest chown self = (Ok tt, appended self (lit "ADD " ++ rest)) /\
      COPY (VStr src) dest None chown self = (Ok tt, appended self (lit "COPY " ++ rest)) /\
      rest = clause (lit "--chown=") chown ++ src ++ lit " " ++ dest.
Proof.
  intros src dest chown self.
  exists (clause (lit "--chown=") chown ++ src ++ lit " " ++ dest).
  destruct chown as [c|]; repeat split; reflexivity.
Qed.

(** X11.  Including a builder that holds no line changes nothing, and
    including the same builder twice adds its lines twice: nothing is
    merged or left out. *)
Theorem include_of_empty_and_repeated_include :
  forall (h : heap) (target other : ref) (t o : Dockerfile),
    h !! target = Some t ->
    h !! other = Some o ->
    target <> other ->
    (_lines o = [] -> include target other h = Some (Ok tt, h)) /\
    exists h1 h2 : heap,
      include target other h = Some (Ok tt, h1) /\
      include target other h1 = Some (Ok tt, h2) /\
      h2 !! target = Some (mkDockerfile (_lines t ++ _lines o ++ _lines o)) /\
      h2 !! other = Some o.
Proof.
  intros h target other t o Ht Ho Hne. split.
  - intros Hnil. rewrite (include_live _ _ _ _ _ Ht Ho), Hnil, app_nil_r.
    f_equal. f_equal. apply insert_id. now destruct t.
  - set (t1 := mkDockerfile (_lines t ++ _lines o)).
    assert (Ht1 : <[target := t1]> h !! target = Some t1) by apply lookup_insert_eq.
    assert (Ho1 : <[target := t1]> h !! other = Some o)
      by now rewrite lookup_insert_ne.
    exists (<[target := t1]> h),
           (<[target := mkDockerfile (_lines t1 ++ _lines o)]> (<[target := t1]> h)).
    split; [now apply include_live|].
    split; [now apply include_live|].
    split.
    + rewrite lookup_insert_eq. simpl. now rewrite <- app_assoc.
    + now rewrite lookup_insert_ne.
Qed.

Lemma include_of_empty_and_repeated_include_witness :
  let h : heap := <[1%positive := mkDockerfile [lit "FROM a"]]>
                    (<[2%positive := mkDockerfile []]> ∅) in
  h !! 1%positive = Some (mkDockerfile [lit "FROM a"]) /\
  h !! 2%positive = Some (mkDockerfile []) /\
  1%positive <> 2%positive /\
  (_lines (mkDockerfile []) = [] ->
   include 1%positive 2%positive h = Some (Ok tt, h)) /\
  exists h1 h2 : heap,
    include 1%positive 2%positive h = Some (Ok tt, h1) /\
    include 1%positive 2%positive h1 = Some (Ok tt, h2) /\
    h2 !! 1%positive
    = Some (mkDockerfile (_lines (mkDockerfile [lit "FROM a"])
                            ++ _lines (mkDockerfile []) ++ _lines (mkDockerfile []))) /\
    h2 !! 2%positive = Some (mkDockerfile []).
Proof.
  intros h.
  assert (H1 : h !! 1%positive = Some (mkDockerfile [lit "FROM a"])) by reflexivity.
  assert (H2 : h !! 2%positive = Some (mkDockerfile [])) by reflexivity.
  assert (H3 : 1%positive <> 2%positive) by discriminate.
  split; [exact H1|]. split; [exact H2|]. split; [exact H3|].
  exact (include_of_empty_and_repeated_include h 1%positive 2%positive _ _ H1 H2 H3).
Defined.

End Properties.
